(** * A model of the RAG answering service of fastapi-groq-test

    Shallow embedding of [app/services/chat.py] ([ChatService]) and
    [app/services/documents.py] ([DocumentService]).

    - A Python [str] is its list of Unicode code points ([list Z]).
    - Exceptions are [Exc]: the class, [str(e)] and the implicit
      [__context__] Python sets when an [except] block raises.
    - The services run in a state and exception monad [M] whose state is
      the ChromaDB collection (a [gmap] from ids to records) and a log of
      the calls made to the two collaborators of [answer_question]:
      [search_similar_documents] and the Groq completion call.
    - The embedding model, the ChromaDB nearest-neighbour query, the Groq
      API and Python's [str.lower] are section variables: every theorem
      holds for all of them. *)

From Stdlib Require Import ZArith QArith_base.
From stdpp Require Import base list gmap.

Abbreviation str := (list Z).

Local Open Scope Z_scope.

(** ** String literals of the source, as code points *)

(** [質問が空です] *)
Definition msg_empty_question : str :=
  [36074; 21839; 12364; 31354; 12391; 12377].

(** [こんにちは！何かお手伝いできることはありますか？] *)
Definition reply_greeting : str :=
  [12371; 12435; 12395; 12385; 12399; 65281; 20309; 12363; 12362; 25163; 20253; 12356;
   12391; 12365; 12427; 12371; 12392; 12399; 12354; 12426; 12414; 12377; 12363; 65311].

(** [どういたしまして！] *)
Definition reply_thanks : str :=
  [12393; 12358; 12356; 12383; 12375; 12414; 12375; 12390; 65281].

(** [また何かありましたらお声かけください！] *)
Definition reply_goodbye : str :=
  [12414; 12383; 20309; 12363; 12354; 12426; 12414; 12375; 12383; 12425; 12362; 22768;
   12363; 12369; 12367; 12384; 12373; 12356; 65281].

(** [関連する文書情報が見つかりませんでした。] *)
Definition no_docs_sentinel : str :=
  [38306; 36899; 12377; 12427; 25991; 26360; 24773; 22577; 12364; 35211; 12388; 12363;
   12426; 12414; 12379; 12435; 12391; 12375; 12383; 12290].

(** [文書] *)
Definition doc_placeholder : str :=
  [25991; 26360].

(** [【] *)
Definition title_open : str :=
  [12304].

(** [】\n] *)
Definition title_close : str :=
  [12305; 10].

(** [\n\n] *)
Definition part_sep : str :=
  [10; 10].

(** [\n                        参考情報:\n                        ] *)
Definition user_prompt_pre : str :=
  [10; 32; 32; 32; 32; 32; 32; 32; 32; 32; 32; 32;
   32; 32; 32; 32; 32; 32; 32; 32; 32; 32; 32; 32;
   32; 21442; 32771; 24773; 22577; 58; 10; 32; 32; 32; 32; 32;
   32; 32; 32; 32; 32; 32; 32; 32; 32; 32; 32; 32;
   32; 32; 32; 32; 32; 32; 32].

(** [\n\n                        質問: ] *)
Definition user_prompt_mid : str :=
  [10; 10; 32; 32; 32; 32; 32; 32; 32; 32; 32; 32;
   32; 32; 32; 32; 32; 32; 32; 32; 32; 32; 32; 32;
   32; 32; 36074; 21839; 58; 32].

(** [\n                        \n                        注意: この質問に対して、必要最小限の情報のみで簡潔に答えてください。\n                    ] *)
Definition user_prompt_post : str :=
  [10; 32; 32; 32; 32; 32; 32; 32; 32; 32; 32; 32;
   32; 32; 32; 32; 32; 32; 32; 32; 32; 32; 32; 32;
   32; 10; 32; 32; 32; 32; 32; 32; 32; 32; 32; 32;
   32; 32; 32; 32; 32; 32; 32; 32; 32; 32; 32; 32;
   32; 32; 27880; 24847; 58; 32; 12371; 12398; 36074; 21839; 12395; 23550;
   12375; 12390; 12289; 24517; 35201; 26368; 23567; 38480; 12398; 24773; 22577; 12398;
   12415; 12391; 31777; 28500; 12395; 31572; 12360; 12390; 12367; 12384; 12373; 12356;
   12290; 10; 32; 32; 32; 32; 32; 32; 32; 32; 32; 32;
   32; 32; 32; 32; 32; 32; 32; 32; 32; 32].

(** [回答生成エラー: ] *)
Definition err_answer : str :=
  [22238; 31572; 29983; 25104; 12456; 12521; 12540; 58; 32].

(** [類似文書の検索に失敗しました: ] *)
Definition err_search : str :=
  [39006; 20284; 25991; 26360; 12398; 26908; 32034; 12395; 22833; 25943; 12375; 12414;
   12375; 12383; 58; 32].

(** [文書の保存に失敗しました: ] *)
Definition err_save : str :=
  [25991; 26360; 12398; 20445; 23384; 12395; 22833; 25943; 12375; 12414; 12375; 12383;
   58; 32].

(** [文書の取得に失敗しました: ] *)
Definition err_get : str :=
  [25991; 26360; 12398; 21462; 24471; 12395; 22833; 25943; 12375; 12414; 12375; 12383;
   58; 32].

(** [文書の削除に失敗しました: ] *)
Definition err_delete : str :=
  [25991; 26360; 12398; 21066; 38500; 12395; 22833; 25943; 12375; 12414; 12375; 12383;
   58; 32].

(** [全文書の削除に失敗しました: ] *)
Definition err_delete_all : str :=
  [20840; 25991; 26360; 12398; 21066; 38500; 12395; 22833; 25943; 12375; 12414; 12375;
   12383; 58; 32].

(** [ID ] *)
Definition not_found_pre : str :=
  [73; 68; 32].

(** [ の文書が見つかりません] *)
Definition not_found_post : str :=
  [32; 12398; 25991; 26360; 12364; 35211; 12388; 12363; 12426; 12414; 12379; 12435].

(** [llama3-8b-8192] *)
Definition model_name : str :=
  [108; 108; 97; 109; 97; 51; 45; 56; 98; 45; 56; 49;
   57; 50].

(** [system] *)
Definition role_system : str :=
  [115; 121; 115; 116; 101; 109].

(** [user] *)
Definition role_user : str :=
  [117; 115; 101; 114].

(** ['NoneType' object has no attribute 'get'] *)
Definition none_get_msg : str :=
  [39; 78; 111; 110; 101; 84; 121; 112; 101; 39; 32; 111;
   98; 106; 101; 99; 116; 32; 104; 97; 115; 32; 110; 111;
   32; 97; 116; 116; 114; 105; 98; 117; 116; 101; 32; 39;
   103; 101; 116; 39].

(** [object of type 'NoneType' has no len()] *)
Definition none_len_msg : str :=
  [111; 98; 106; 101; 99; 116; 32; 111; 102; 32; 116; 121;
   112; 101; 32; 39; 78; 111; 110; 101; 84; 121; 112; 101;
   39; 32; 104; 97; 115; 32; 110; 111; 32; 108; 101; 110;
   40; 41].

(** こんにちは, こんばんは, おはよう, hello, hi, はじめまして *)
Definition greetings : list str :=
  [[12371; 12435; 12395; 12385; 12399];
   [12371; 12435; 12400; 12435; 12399];
   [12362; 12399; 12424; 12358];
   [104; 101; 108; 108; 111];
   [104; 105];
   [12399; 12376; 12417; 12414; 12375; 12390]].

(** ありがとう, thank, 感謝 *)
Definition thanks : list str :=
  [[12354; 12426; 12364; 12392; 12358];
   [116; 104; 97; 110; 107];
   [24863; 35613]].

(** さようなら, またね, bye, goodbye *)
Definition goodbye : list str :=
  [[12373; 12424; 12358; 12394; 12425];
   [12414; 12383; 12397];
   [98; 121; 101];
   [103; 111; 111; 100; 98; 121; 101]].

(** The system prompt of [ChatService.__init__], verbatim. *)
Definition system_prompt : str :=
  [12354; 12394; 12383; 12399; 12503; 12522; 12470; 12531; 12479; 12540; 26989; 21209; 12471; 12473; 12486; 12512;
   23554; 29992; 12398; 65; 73; 12450; 12471; 12473; 12479; 12531; 12488; 12391; 12377; 12290; 10; 32;
   32; 32; 32; 32; 32; 32; 32; 32; 32; 32; 32; 12304; 24441; 21106; 12305; 10;
   32; 32; 32; 32; 32; 32; 32; 32; 32; 32; 32; 32; 45; 32; 12503; 12522;
   12470; 12531; 12479; 12540; 12398; 25805; 20316; 26041; 27861; 12420; 27231; 33021; 12395; 12388; 12356; 12390;
   22238; 31572; 10; 32; 32; 32; 32; 32; 32; 32; 32; 32; 32; 32; 32; 45;
   32; 26989; 21209; 12395; 38306; 12377; 12427; 36074; 21839; 12434; 12469; 12509; 12540; 12488; 10; 32;
   32; 32; 32; 32; 32; 32; 32; 32; 32; 32; 32; 45; 32; 30331; 37682; 12373;
   12428; 12390; 12356; 12427; 25991; 26360; 24773; 22577; 12434; 27963; 29992; 12375; 12383; 27491; 30906; 12394;
   22238; 31572; 10; 10; 32; 32; 32; 32; 32; 32; 32; 32; 32; 32; 32; 32;
   12304; 22238; 31572; 26041; 37341; 12305; 10; 32; 32; 32; 32; 32; 32; 32; 32; 32;
   32; 32; 32; 45; 32; 25552; 20379; 12373; 12428; 12383; 21442; 32771; 24773; 22577; 12398; 12415;
   12434; 22522; 12395; 22238; 31572; 12375; 12390; 12367; 12384; 12373; 12356; 10; 32; 32; 32; 32;
   32; 32; 32; 32; 32; 32; 32; 32; 45; 32; 21442; 32771; 24773; 22577; 12395; 31572;
   12360; 12364; 12394; 12356; 22580; 21512; 12399; 12300; 30003; 12375; 35379; 12372; 12374; 12356; 12414; 12379;
   12435; 12364; 12289; 12381; 12398; 24773; 22577; 12399; 35211; 12388; 12363; 12426; 12414; 12379; 12435; 12391;
   12375; 12383; 12290; 12503; 12522; 12470; 12531; 12479; 12540; 12398; 31649; 29702; 32773; 12395; 12362; 21839;
   12356; 21512; 12431; 12379; 12367; 12384; 12373; 12356; 12301; 12392; 22238; 31572; 10; 32; 32; 32;
   32; 32; 32; 32; 32; 32; 32; 32; 32; 45; 32; 25512; 28204; 12420; 24819; 20687;
   12391; 12398; 22238; 31572; 12399; 34892; 12431; 12394; 12356; 12391; 12367; 12384; 12373; 12356; 10; 32;
   32; 32; 32; 32; 32; 32; 32; 32; 32; 32; 32; 45; 32; 22238; 31572; 12399;
   20998; 12363; 12426; 12420; 12377; 12367; 12289; 23455; 29992; 30340; 12395; 12375; 12390; 12367; 12384; 12373;
   12356; 10; 32; 32; 32; 32; 32; 32; 32; 32; 32; 32; 32; 32; 45; 32;
   36074; 21839; 12395; 23550; 12375; 12390; 24517; 35201; 26368; 23567; 38480; 12398; 24773; 22577; 12398; 12415;
   31572; 12360; 12390; 12367; 12384; 12373; 12356; 10; 32; 32; 32; 32; 32; 32; 32; 32;
   32; 32; 32; 32; 45; 32; 25384; 25334; 12420; 38609; 35527; 12395; 12399; 31777; 28500; 12395;
   36820; 12375; 12289; 35443; 32048; 12394; 35500; 26126; 12399; 27714; 12417; 12425; 12428; 12383; 22580; 21512;
   12398; 12415; 25552; 20379; 12375; 12390; 12367; 12384; 12373; 12356; 10; 32; 32; 32; 32; 32;
   32; 32; 32; 32; 32; 32; 32; 45; 32; 38306; 36899; 24773; 22577; 12398; 33258; 30330;
   30340; 12394; 25552; 20379; 12399; 36991; 12369; 12289; 32862; 12363; 12428; 12383; 12371; 12392; 12384; 12369;
   12395; 31572; 12360; 12390; 12367; 12384; 12373; 12356; 10; 32; 32; 32; 32; 32; 32; 32;
   32; 32; 32; 32; 32].

(** Literals of [DocumentService.get_collection_info] and of the routers. *)

(** [コレクション情報の取得に失敗しました: ] *)
Definition err_info : str :=
  [12467; 12524; 12463; 12471; 12519; 12531; 24773; 22577; 12398; 21462; 24471; 12395;
   22833; 25943; 12375; 12414; 12375; 12383; 58; 32].

(** [documents] *)
Definition collection_name : str :=
  [100; 111; 99; 117; 109; 101; 110; 116; 115].

(** [エラーが発生しました: ] *)
Definition route_err_chat : str :=
  [12456; 12521; 12540; 12364; 30330; 29983; 12375; 12414; 12375; 12383; 58; 32].

(** [文書が見つかりません: ] *)
Definition route_err_get : str :=
  [25991; 26360; 12364; 35211; 12388; 12363; 12426; 12414; 12379; 12435; 58; 32].

(** [文書の検索に失敗しました: ] *)
Definition route_err_search : str :=
  [25991; 26360; 12398; 26908; 32034; 12395; 22833; 25943; 12375; 12414; 12375; 12383;
   58; 32].

(** [情報の取得に失敗しました: ] *)
Definition route_err_info : str :=
  [24773; 22577; 12398; 21462; 24471; 12395; 22833; 25943; 12375; 12414; 12375; 12383;
   58; 32].

(** [件の文書を削除しました] *)
Definition deleted_suffix : str :=
  [20214; 12398; 25991; 26360; 12434; 21066; 38500; 12375; 12414; 12375; 12383].

(** [文書が正常に削除されました] *)
Definition delete_ok_message : str :=
  [25991; 26360; 12364; 27491; 24120; 12395; 21066; 38500; 12373; 12428; 12414; 12375;
   12383].

(** [-] *)
Definition minus_sign : str :=
  [45].

(** ** Python string helpers *)

(** [str.isspace] for one code point (the characters Python strips). *)
Definition py_isspace (c : Z) : bool :=
  ((9 <=? c) && (c <=? 13)) || ((28 <=? c) && (c <=? 32)) || (c =? 133) || (c =? 160)
  || (c =? 5760) || ((8192 <=? c) && (c <=? 8202)) || (c =? 8232) || (c =? 8233)
  || (c =? 8239) || (c =? 8287) || (c =? 12288).

Fixpoint lstrip_ws (s : str) : str :=
  match s with
  | c :: s' => if py_isspace c then lstrip_ws s' else s
  | [] => []
  end.

(** [s.strip()] *)
Definition py_strip (s : str) : str := rev (lstrip_ws (rev (lstrip_ws s))).

Fixpoint is_prefix (p s : str) : bool :=
  match p, s with
  | [], _ => true
  | x :: p', y :: s' => (x =? y) && is_prefix p' s'
  | _ :: _, [] => false
  end.

(** [p in s] for strings. *)
Fixpoint py_contains (p s : str) : bool :=
  is_prefix p s || match s with [] => false | _ :: s' => py_contains p s' end.

(** [sep.join(parts)] *)
Fixpoint py_join (sep : str) (parts : list str) : str :=
  match parts with
  | [] => []
  | [x] => x
  | x :: xs => x ++ sep ++ py_join sep xs
  end.

Fixpoint uint_str (u : Decimal.uint) : str :=
  match u with
  | Decimal.Nil => []
  | Decimal.D0 u => 48 :: uint_str u | Decimal.D1 u => 49 :: uint_str u
  | Decimal.D2 u => 50 :: uint_str u | Decimal.D3 u => 51 :: uint_str u
  | Decimal.D4 u => 52 :: uint_str u | Decimal.D5 u => 53 :: uint_str u
  | Decimal.D6 u => 54 :: uint_str u | Decimal.D7 u => 55 :: uint_str u
  | Decimal.D8 u => 56 :: uint_str u | Decimal.D9 u => 57 :: uint_str u
  end.

(** [str(n)] for a non-negative [int]. *)
Definition py_str_nat (n : nat) : str := uint_str (Nat.to_uint n).

(** [str(n)] for an [int]. *)
Definition py_str_int (z : Z) : str :=
  if z <? 0 then minus_sign ++ py_str_nat (Z.to_nat (- z)) else py_str_nat (Z.to_nat z).

(** ** Exceptions *)

Inductive ExcKind :=
| KValueError
| KTypeError
| KAttributeError
| KException
| KOther (name : str).

(** class, message ([str(e)]) and [__context__]. *)
#[warnings="-register-all"]
Inductive Exc := PyExc (kind : ExcKind) (msg : str) (context : option Exc).

Definition exc_str (e : Exc) : str := match e with PyExc _ m _ => m end.

(** [raise Exception(f"<prefix>{str(e)}")] inside [except Exception as e]. *)
Definition wrap (prefix : str) (e : Exc) : Exc :=
  PyExc KException (prefix ++ exc_str e) (Some e).

Inductive Result (A : Type) := Ok (a : A) | Err (e : Exc).
Arguments Ok {A} a.
Arguments Err {A} e.

(** ** Data passed to and from the collaborators *)

Record Message := { role : str; content : str }.

Record Params := { p_model : str; p_temperature : Q; p_max_tokens : Z }.

Inductive Call :=
| CallSearch (query : str) (n_results : Z)
| CallGenerate (messages : list Message) (params : Params).

(** A metadata value of a query hit: [None] or a dict, of which only the
    ["title"] key is read. *)
Inductive PyMeta := MetaNone | MetaDict (title : option str).

(** One element of the list built by [search_similar_documents]. The
    ["document"] value [None] and the empty string are both falsy, and
    are both [None] or [Some []] here. *)
Record Doc := {
  d_id : str;
  d_document : option str;
  d_metadata : PyMeta;
  d_distance : Q }.

(** Metadata written by [add_document]. *)
Record Meta := { m_title : str; m_created_at : str; m_text_length : Z }.

(** The messages of the completion call and its sampling parameters
    ([model="llama3-8b-8192", temperature=0.1, max_tokens=256]). *)
Definition user_content (context question : str) : str :=
  user_prompt_pre ++ context ++ user_prompt_mid ++ question ++ user_prompt_post.

Definition chat_messages (context question : str) : list Message :=
  [ {| role := role_system; content := system_prompt |};
    {| role := role_user; content := user_content context question |} ].

Definition gen_params : Params :=
  {| p_model := model_name; p_temperature := 1 # 10; p_max_tokens := 256 |}.

(** ** [ChatService._build_context] (pure) *)

(** The loop [for i, doc in enumerate(documents, 1)]: the title is read
    first ([doc.get("metadata", {}).get("title", f"文書{i}")], which raises
    on a [None] metadata), then the entry is kept only if its content is
    truthy. *)
Fixpoint context_parts (i : nat) (docs : list Doc) : Result (list str) :=
  match docs with
  | [] => Ok []
  | d :: ds =>
      match d_metadata d with
      | MetaNone => Err (PyExc KAttributeError none_get_msg None)
      | MetaDict t =>
          let title := match t with Some x => x | None => doc_placeholder ++ py_str_nat i end in
          let content := match d_document d with Some c => c | None => [] end in
          match context_parts (S i) ds with
          | Err e => Err e
          | Ok ps =>
              match content with
              | [] => Ok ps
              | _ :: _ => Ok ((title_open ++ title ++ title_close ++ content) :: ps)
              end
          end
      end
  end.

Definition build_context (documents : list Doc) : Result str :=
  match documents with
  | [] => Ok no_docs_sentinel
  | _ :: _ =>
      match context_parts 1 documents with
      | Err e => Err e
      | Ok [] => Ok no_docs_sentinel
      | Ok parts => Ok (py_join part_sep parts)
      end
  end.

(** ** [ChatService._check_simple_greeting] *)

Section Greeting.

(** Python's [str.lower]. *)
Variable py_lower : str -> str.

Definition check_simple_greeting (question : str) : option str :=
  let question_lower := py_strip (py_lower question) in
  if existsb (fun g => py_contains g question_lower) greetings then Some reply_greeting
  else if existsb (fun t => py_contains t question_lower) thanks then Some reply_thanks
  else if existsb (fun b => py_contains b question_lower) goodbye then Some reply_goodbye
  else None.

(** The three categories, in the order the loops test them. *)
Inductive Category := Greeting | Thanks | Farewell.

Definition keywords (c : Category) : list str :=
  match c with Greeting => greetings | Thanks => thanks | Farewell => goodbye end.

Definition reply (c : Category) : str :=
  match c with Greeting => reply_greeting | Thanks => reply_thanks | Farewell => reply_goodbye end.

Definition rank (c : Category) : nat :=
  match c with Greeting => 0 | Thanks => 1 | Farewell => 2 end.

(** [question.lower().strip()] contains a keyword of [c]. *)
Definition matches (c : Category) (question : str) : bool :=
  existsb (fun k => py_contains k (py_strip (py_lower question))) (keywords c).

End Greeting.

(** Python's [str.lower] on ASCII text. *)
Definition ascii_lower (s : str) : str :=
  map (fun c => if (65 <=? c) && (c <=? 90) then c + 32 else c) s.

(** Inputs used by the concrete checks below. *)
Definition q_thank_you_for_this : str :=
  [116; 104; 97; 110; 107; 32; 121; 111; 117; 32; 102; 111; 114; 32; 116; 104; 105; 115].

Definition q_hello : str := [104; 101; 108; 108; 111].

Definition q_hi_thanks_bye : str :=
  [104; 105; 44; 32; 116; 104; 97; 110; 107; 115; 44; 32; 98; 121; 101].

Definition q_hours : str :=
  [87; 104; 97; 116; 32; 97; 114; 101; 32; 121; 111; 117; 114; 32; 104; 111; 117; 114; 115; 63].

Definition hours_doc : Doc :=
  {| d_id := [100; 49];
     d_document := Some [87; 101; 32; 97; 114; 101; 32; 111; 112; 101; 110; 32; 57; 32; 116; 111; 32; 53; 46];
     d_metadata := MetaDict (Some [72; 111; 117; 114; 115]);
     d_distance := 0 |}.

(** [{title:"T1", document:"C1"}, {title:"T2", document:"C2"}] *)
Definition docs_t1_t2 : list Doc :=
  [ {| d_id := [100; 49]; d_document := Some [67; 49]; d_metadata := MetaDict (Some [84; 49]); d_distance := 0 |};
    {| d_id := [100; 50]; d_document := Some [67; 50]; d_metadata := MetaDict (Some [84; 50]); d_distance := 0 |} ].

(** ["[T1]\nC1\n\n[T2]\nC2"] *)
Definition ascii_bracket_context : str :=
  [91; 84; 49; 93; 10; 67; 49; 10; 10; 91; 84; 50; 93; 10; 67; 50].

(** The formatted entry of the document at position [i] (from 1), when its
    metadata is a dict. *)
Definition entry_title (i : nat) (t : option str) : str :=
  match t with Some x => x | None => doc_placeholder ++ py_str_nat i end.

Definition format_entry (i : nat) (d : Doc) : option str :=
  match d_document d, d_metadata d with
  | Some (c :: cs), MetaDict t => Some (title_open ++ entry_title i t ++ title_close ++ c :: cs)
  | _, _ => None
  end.

Definition formatted_entries (docs : list Doc) : list str :=
  omap (fun x => x) (imap (fun k d => format_entry (S k) d) docs).

(** ** The services over the collection *)

Section Services.

(** The embedding vector type. *)
Variable Vec : Type.

(** A ChromaDB record: embedding, document text and metadata. *)
Record Rec := { r_embedding : Vec; r_document : str; r_metadata : Meta }.

Record St := { st_store : gmap str Rec; st_log : list Call }.

(** State and exception monad. *)
Definition M (A : Type) : Type := St -> Result A * St.

Definition ret {A} (a : A) : M A := fun s => (Ok a, s).

Definition bind {A B} (m : M A) (k : A -> M B) : M B :=
  fun s => match m s with
           | (Ok a, s') => k a s'
           | (Err e, s') => (Err e, s')
           end.

Notation "'let!' x ':=' m 'in' k" := (bind m (fun x => k))
  (at level 200, x name, m at level 100, k at level 200).

Definition throw {A} (e : Exc) : M A := fun s => (Err e, s).

(** [try: m except Exception as e: h(e)] *)
Definition try_except {A} (m : M A) (h : Exc -> M A) : M A :=
  fun s => match m s with
           | (Err e, s') => h e s'
           | r => r
           end.

Definition lift {A} (r : Result A) : M A :=
  match r with Ok a => ret a | Err e => throw e end.

Definition emit (c : Call) : M unit :=
  fun s => (Ok tt, {| st_store := st_store s; st_log := st_log s ++ [c] |}).

Definition read_store : M (gmap str Rec) := fun s => (Ok (st_store s), s).

Definition modify_store (f : gmap str Rec -> gmap str Rec) : M unit :=
  fun s => (Ok tt, {| st_store := f (st_store s); st_log := st_log s |}).

(** *** The ChromaDB collection ([self.collection]) *)

(** [collection.get(ids=ids)]: the records found, in the order of [ids]. *)
Definition col_get_ids (ids : list str) : M (list (str * Rec)) :=
  let! store := read_store in
  ret (omap (fun i => (fun r => (i, r)) <$> store !! i) ids).

(** [collection.get()["ids"]] *)
Definition col_get_all_ids : M (list str) :=
  let! store := read_store in
  ret (map fst (map_to_list store)).

(** [collection.upsert(...)]: inserts or replaces the whole record. *)
Definition col_upsert (id : str) (r : Rec) : M unit :=
  modify_store (fun store => <[id := r]> store).

(** [collection.delete(ids=ids)]: absent ids are ignored. *)
Definition col_delete (ids : list str) : M unit :=
  modify_store (fun store => foldl (fun m i => delete i m) store ids).

(** [collection.count()] *)
Definition col_count : M nat :=
  let! store := read_store in
  ret (size store).

(** The SentenceTransformer: [self.embedding_model.encode([text])[0].tolist()]. *)
Variable encode : str -> Result Vec.

(** [collection.query(query_embeddings=[v], n_results=n)], re-packed row by
    row into the dicts [search_similar_documents] builds. It only reads
    the collection. *)
Variable chroma_query : gmap str Rec -> Vec -> Z -> Result (list Doc).

(** [groq_client.chat.completions.create(...)].choices[0].message.content *)
Variable groq_create : list Message -> Params -> Result (option str).

(** Python's [str.lower]. *)
Variable py_lower : str -> str.

(** Whitespace has no case mapping: [s.lower() == s] when [s] is blank. *)
Hypothesis py_lower_blank : forall s, forallb py_isspace s = true -> py_lower s = s.

(** *** [DocumentService] *)

Record AddResult := { vector_id : str; embedding : Vec }.

(** [add_document(id, title, text)]; [now] is the value of
    [datetime.datetime.now().isoformat()] at the call. *)
Definition add_document (id title text now : str) : M AddResult :=
  try_except
    (let! _existing := col_get_ids [id] in
     let! emb := lift (encode text) in
     let doc_metadata :=
       {| m_title := title; m_created_at := now; m_text_length := Z.of_nat (length text) |} in
     let! _ := col_upsert id {| r_embedding := emb; r_document := text; r_metadata := doc_metadata |} in
     let! _saved := col_get_ids [id] in
     ret {| vector_id := id; embedding := emb |})
    (fun e => throw (wrap err_save e)).

Definition search_similar_documents (query : str) (n_results : Z) : M (list Doc) :=
  let! _ := emit (CallSearch query n_results) in
  try_except
    (let! query_embedding := lift (encode query) in
     let! store := read_store in
     lift (chroma_query store query_embedding n_results))
    (fun e => throw (wrap err_search e)).

Record GotDoc := {
  g_id : str; g_title : str; g_text : str; g_metadata : Meta; g_embedding : Vec }.

Definition not_found (document_id : str) : Exc :=
  PyExc KException (not_found_pre ++ document_id ++ not_found_post) None.

Definition get_document (document_id : str) : M GotDoc :=
  try_except
    (let! results := col_get_ids [document_id] in
     match results with
     | [] => throw (not_found document_id)
     | (i, r) :: _ =>
         ret {| g_id := i; g_title := m_title (r_metadata r); g_text := r_document r;
                g_metadata := r_metadata r; g_embedding := r_embedding r |}
     end)
    (fun e => throw (wrap err_get e)).

Definition delete_document (document_id : str) : M bool :=
  try_except
    (let! _ := col_delete [document_id] in ret true)
    (fun e => throw (wrap err_delete e)).

Record DeleteAllResult := { success : bool; deleted_count : Z }.

Definition delete_all_documents : M DeleteAllResult :=
  try_except
    (let! count_before := col_count in
     let! all_ids := col_get_all_ids in
     let! _ := match all_ids with [] => ret tt | _ :: _ => col_delete all_ids end in
     let! count_after := col_count in
     ret {| success := true; deleted_count := Z.of_nat count_before - Z.of_nat count_after |})
    (fun e => throw (wrap err_delete_all e)).

(** *** [ChatService.answer_question] *)

Definition generate (messages : list Message) (params : Params) : M (option str) :=
  let! _ := emit (CallGenerate messages params) in
  lift (groq_create messages params).

Definition validation_error : Exc := PyExc KValueError msg_empty_question None.

Definition answer_question (question : str) : M str :=
  match py_strip question with
  | [] => throw validation_error
  | _ :: _ =>
      match check_simple_greeting py_lower question with
      | Some reply => ret reply
      | None =>
          try_except
            (let! related_docs := search_similar_documents question 3 in
             let! context := lift (build_context related_docs) in
             let! answer := generate (chat_messages context question) gen_params in
             match answer with
             | None => throw (PyExc KTypeError none_len_msg None)
             | Some a => ret a
             end)
            (fun e => throw (wrap err_answer e))
      end
  end.

(** *** [DocumentService.get_all_documents] and [get_collection_info] *)

Record ListedDoc := { l_id : str; l_document : str; l_metadata : Meta }.

(** [collection.get()] returns the ids, documents and metadatas columns in
    one store-defined order; the loop zips them into dicts. *)
Definition get_all_documents : M (list ListedDoc) :=
  try_except
    (let! store := read_store in
     ret (map (fun ir => {| l_id := fst ir; l_document := r_document (snd ir);
                            l_metadata := r_metadata (snd ir) |})
              (map_to_list store)))
    (fun e => throw (wrap err_get e)).

(** [self.collection.metadata], as ChromaDB returns it. *)
Variable collection_metadata : list (str * str).

Record CollectionInfo := { ci_name : str; ci_metadata : list (str * str); ci_count : Z }.

Definition get_collection_info : M CollectionInfo :=
  try_except
    (let! n := col_count in
     ret {| ci_name := collection_name; ci_metadata := collection_metadata;
            ci_count := Z.of_nat n |})
    (fun e => throw (wrap err_info e)).

(** *** [ChatService.process_message] (deprecated alias) *)

Definition process_message (message : str) : M str := answer_question message.

(** *** The routers ([routers/chat.py], [routers/documents.py]) *)

(** A response model, or a [JSONResponse(status_code, {"error": ...})]. *)
Inductive HttpResponse (A : Type) := HttpOk (body : A) | HttpJsonError (status : Z) (error : str).
Arguments HttpOk {A} body.
Arguments HttpJsonError {A} status error.

(** Whether a collaborator's exception class is a subclass of [ValueError]. *)
Variable value_error_subclass : str -> bool.

(** [except ValueError] *)
Definition is_value_error (e : Exc) : bool :=
  match e with
  | PyExc KValueError _ _ => true
  | PyExc (KOther name) _ _ => value_error_subclass name
  | _ => false
  end.

(** [POST /api/chat] *)
Definition receive_chat (message : str) : M (HttpResponse str) :=
  fun s => match process_message message s with
           | (Ok chat_reply, s') => (Ok (HttpOk chat_reply), s')
           | (Err e, s') =>
               (Ok (if is_value_error e then HttpJsonError 400 (exc_str e)
                    else HttpJsonError 500 (route_err_chat ++ exc_str e)), s')
           end.

(** [try: ... return Response(...) except Exception as e: return
    JSONResponse(status_code=status, content={"error": f"<prefix>{str(e)}"})] *)
Definition handle_route {A B} (m : M A) (respond : A -> Result B) (status : Z) (prefix : str)
  : M (HttpResponse B) :=
  fun s => match m s with
           | (Ok a, s') =>
               match respond a with
               | Ok b => (Ok (HttpOk b), s')
               | Err e => (Ok (HttpJsonError status (prefix ++ exc_str e)), s')
               end
           | (Err e, s') => (Ok (HttpJsonError status (prefix ++ exc_str e)), s')
           end.

(** [POST /api/documents]: [AddDocumentResponse(embedding=...)]. *)
Definition route_add_document (id title text now : str) : M (HttpResponse Vec) :=
  handle_route (add_document id title text now) (fun r => Ok (embedding r)) 500 err_save.

(** [POST /api/documents/search] *)
Definition route_search_documents (query : str) (n_results : Z) : M (HttpResponse (list Doc)) :=
  handle_route (search_similar_documents query n_results) Ok 500 route_err_search.

(** [GET /api/documents]: [GetAllDocumentsResponse(documents=..., count=len(...))]. *)
Definition route_get_all_documents : M (HttpResponse (list ListedDoc * Z)) :=
  handle_route get_all_documents (fun ds => Ok (ds, Z.of_nat (length ds))) 500 err_get.

(** [GET /api/documents/info] *)
Definition route_get_collection_info : M (HttpResponse CollectionInfo) :=
  handle_route get_collection_info Ok 500 route_err_info.

Record DeleteAllResponse := { da_success : bool; da_deleted_count : Z; da_message : str }.

(** [DELETE /api/documents] *)
Definition route_delete_all_documents : M (HttpResponse DeleteAllResponse) :=
  handle_route delete_all_documents
    (fun r => Ok {| da_success := success r; da_deleted_count := deleted_count r;
                    da_message := py_str_int (deleted_count r) ++ deleted_suffix |})
    500 err_delete_all.

Record DeleteResponse := { dr_success : bool; dr_message : str }.

(** [DELETE /api/documents/{document_id}] *)
Definition route_delete_document (document_id : str) : M (HttpResponse DeleteResponse) :=
  handle_route (delete_document document_id)
    (fun b => Ok {| dr_success := b; dr_message := delete_ok_message |}) 500 err_delete.

(** Pydantic's [GetDocumentResponse] built from the returned dict, which may reject the
    value ChromaDB returns for the embedding. *)
Variable get_document_response : GotDoc -> Result GotDoc.

(** [GET /api/documents/{document_id}]: every exception becomes a 404. *)
Definition route_get_document (document_id : str) : M (HttpResponse GotDoc) :=
  handle_route (get_document document_id) get_document_response 404 route_err_get.

(** ** Lemmas *)

(** *** Commands that leave the collection unchanged *)

Definition store_preserving {A} (m : M A) : Prop :=
  forall s, st_store (snd (m s)) = st_store s.

Lemma ret_sp {A} (a : A) : store_preserving (ret a).
Proof. intros s; reflexivity. Qed.

Lemma throw_sp {A} (e : Exc) : store_preserving (@throw A e).
Proof. intros s; reflexivity. Qed.

Lemma lift_sp {A} (r : Result A) : store_preserving (lift r).
Proof. destruct r; intros s; reflexivity. Qed.

Lemma emit_sp (c : Call) : store_preserving (emit c).
Proof. intros s; reflexivity. Qed.

Lemma read_store_sp : store_preserving read_store.
Proof. intros s; reflexivity. Qed.

Lemma bind_sp {A B} (m : M A) (k : A -> M B) :
  store_preserving m -> (forall a, store_preserving (k a)) -> store_preserving (bind m k).
Proof.
  intros Hm Hk s; unfold bind.
  specialize (Hm s); destruct (m s) as [[a|e] s']; simpl in *.
  - rewrite Hk; exact Hm.
  - exact Hm.
Qed.

Lemma try_except_sp {A} (m : M A) (h : Exc -> M A) :
  store_preserving m -> (forall e, store_preserving (h e)) -> store_preserving (try_except m h).
Proof.
  intros Hm Hh s; unfold try_except.
  specialize (Hm s); destruct (m s) as [[a|e] s']; simpl in *.
  - exact Hm.
  - rewrite Hh; exact Hm.
Qed.

Create HintDb sp.
#[local] Hint Resolve ret_sp throw_sp lift_sp emit_sp read_store_sp : sp.

Ltac sp_step :=
  match goal with
  | |- store_preserving (bind _ _) => apply bind_sp; [|intros ?]
  | |- store_preserving (try_except _ _) => apply try_except_sp; [|intros ?]
  | |- store_preserving (match ?x with _ => _ end) => destruct x
  | |- store_preserving _ => solve [auto with sp]
  end.

Lemma search_similar_documents_sp (q : str) (n : Z) :
  store_preserving (search_similar_documents q n).
Proof. unfold search_similar_documents; repeat sp_step. Qed.

Lemma generate_sp (ms : list Message) (p : Params) : store_preserving (generate ms p).
Proof. unfold generate; repeat sp_step. Qed.

#[local] Hint Resolve search_similar_documents_sp generate_sp : sp.

(** *** [str.strip] *)

Lemma lstrip_ws_nil (s : str) : lstrip_ws s = [] <-> forallb py_isspace s = true.
Proof.
  induction s as [|c s IH]; simpl; [tauto|].
  destruct (py_isspace c); simpl; [exact IH|].
  split; discriminate.
Qed.

Lemma lstrip_ws_head (s : str) (c : Z) (s' : str) :
  lstrip_ws s = c :: s' -> py_isspace c = false.
Proof.
  induction s as [|x s IH]; simpl; [discriminate|].
  destruct (py_isspace x) eqn:Hx; [exact IH|].
  intros [= <- _]; exact Hx.
Qed.

Lemma forallb_rev_eq (f : Z -> bool) (l : str) : forallb f (rev l) = forallb f l.
Proof.
  induction l as [|x l IH]; simpl; [reflexivity|].
  rewrite forallb_app, IH; simpl. destruct (f x), (forallb f l); reflexivity.
Qed.

Lemma py_strip_nil (s : str) : py_strip s = [] <-> forallb py_isspace s = true.
Proof.
  unfold py_strip; rewrite <- lstrip_ws_nil.
  split.
  - intros H. apply (f_equal (@rev Z)) in H. rewrite rev_involutive in H.
    apply lstrip_ws_nil in H. rewrite forallb_rev_eq in H.
    destruct (lstrip_ws s) as [|c s'] eqn:E; [reflexivity|].
    apply lstrip_ws_head in E. simpl in H. rewrite E in H. discriminate.
  - intros ->. reflexivity.
Qed.

(** *** Deleting a list of ids *)

Lemma foldl_delete_lookup (ks : list str) (m : gmap str Rec) (i : str) :
  foldl (fun m k => delete k m) m ks !! i = if decide (i ∈ ks) then None else m !! i.
Proof.
  revert m; induction ks as [|k ks IH]; intros m; simpl; [reflexivity|].
  rewrite IH.
  destruct (decide (i ∈ ks)) as [Hin|Hnin];
    destruct (decide (i ∈ k :: ks)) as [Hin'|Hnin']; rewrite ?elem_of_cons in *; try tauto.
  destruct (decide (k = i)) as [->|Hne].
  - apply lookup_delete_eq.
  - destruct Hin' as [->|]; tauto.
  - apply lookup_delete_ne. intros ->. tauto.
Qed.

Lemma delete_all_keys (m : gmap str Rec) :
  foldl (fun m k => delete k m) m (map fst (map_to_list m)) = ∅.
Proof.
  apply map_eq; intros i.
  rewrite foldl_delete_lookup, lookup_empty.
  destruct (decide _) as [_|Hnin]; [reflexivity|].
  destruct (m !! i) as [r|] eqn:E; [|reflexivity].
  exfalso; apply Hnin, list_elem_of_In.
  apply in_map_iff. exists (i, r). split; [reflexivity|].
  apply list_elem_of_In, elem_of_map_to_list; exact E.
Qed.

(** *** The short-circuit check *)

Lemma check_simple_greeting_by_category (q : str) :
  check_simple_greeting py_lower q =
    if matches py_lower Greeting q then Some reply_greeting
    else if matches py_lower Thanks q then Some reply_thanks
    else if matches py_lower Farewell q then Some reply_goodbye
    else None.
Proof. reflexivity. Qed.

Lemma matches_nonblank (c : Category) (q : str) :
  matches py_lower c q = true -> forallb py_isspace q = false.
Proof.
  intros H. destruct (forallb py_isspace q) eqn:E; [|reflexivity].
  exfalso. unfold matches in H.
  rewrite (py_lower_blank q E) in H.
  apply py_strip_nil in E. rewrite E in H.
  destruct c; vm_compute in H; discriminate.
Qed.

Lemma answer_question_short (q : str) (st : St) (r : str) :
  forallb py_isspace q = false ->
  check_simple_greeting py_lower q = Some r ->
  answer_question q st = (Ok r, st).
Proof.
  intros Hb Hc. unfold answer_question.
  destruct (py_strip q) eqn:E.
  - apply py_strip_nil in E; congruence.
  - rewrite Hc; reflexivity.
Qed.

Lemma answer_question_pipeline (q : str) :
  forallb py_isspace q = false ->
  check_simple_greeting py_lower q = None ->
  answer_question q =
    try_except
      (let! related_docs := search_similar_documents q 3 in
       let! context := lift (build_context related_docs) in
       let! answer := generate (chat_messages context q) gen_params in
       match answer with
       | None => throw (PyExc KTypeError none_len_msg None)
       | Some a => ret a
       end)
      (fun e => throw (wrap err_answer e)).
Proof.
  intros Hb Hc. unfold answer_question.
  destruct (py_strip q) eqn:E.
  - apply py_strip_nil in E; congruence.
  - rewrite Hc; reflexivity.
Qed.

Lemma answer_question_sp (q : str) : store_preserving (answer_question q).
Proof.
  unfold answer_question.
  repeat (sp_step || cbv beta).
Qed.

(** Runs the retrieval path of [answer_question q], case by case on the
    outcome of each collaborator. *)
Ltac run_pipeline q :=
  unfold search_similar_documents, generate, try_except, bind, emit, lift,
    read_store, ret, throw; simpl;
  destruct (encode q) as [?v|?e]; simpl;
  [ lazymatch goal with |- context [chroma_query ?m ?v 3] =>
      destruct (chroma_query m v 3) as [?docs|?e] end; simpl;
    [ lazymatch goal with |- context [build_context ?d] =>
        destruct (build_context d) as [?ctx|?e] end; simpl;
      [ lazymatch goal with |- context [groq_create ?ms gen_params] =>
          destruct (groq_create ms gen_params) as [[?a|]|?e] end; simpl | ] | ] | ].

(** ** Claims *)

(** C2: a blank question (empty or only whitespace) fails with the
    [ValueError] of the validation step, before any collaborator call:
    the log and the collection are unchanged. *)
Theorem answer_question_blank (q : str) (st : St) :
  forallb py_isspace q = true ->
  answer_question q st = (Err validation_error, st).
Proof.
  intros H. unfold answer_question.
  apply py_strip_nil in H. rewrite H. reflexivity.
Qed.

(** C9: [answer_question] never writes to the collection, whatever its
    outcome (answer, canned reply or exception). *)
Theorem answer_question_no_store_write (q : str) (st : St) :
  st_store (snd (answer_question q st)) = st_store st.
Proof. apply answer_question_sp. Qed.

(** C7: [delete_all_documents] returns [{success: True, deleted_count: N}]
    with [N] the size of the collection before the call, and leaves the
    collection empty ([count()] is then 0). *)
Theorem delete_all_documents_count (st : St) :
  delete_all_documents st =
    (Ok {| success := true; deleted_count := Z.of_nat (size (st_store st)) |},
     {| st_store := ∅; st_log := st_log st |})
  /\ fst (col_count {| st_store := ∅; st_log := st_log st |}) = Ok 0%nat.
Proof.
  split; [|reflexivity].
  destruct st as [m l].
  unfold delete_all_documents, try_except, bind, col_count, col_get_all_ids,
    col_delete, modify_store, read_store, ret; simpl.
  destruct (map fst (map_to_list m)) as [|k ks] eqn:E.
  - assert (Hm : m = ∅).
    { apply map_to_list_empty_iff. destruct (map_to_list m); [reflexivity|discriminate]. }
    subst m. simpl. rewrite map_size_empty. reflexivity.
  - rewrite <- E. simpl. rewrite delete_all_keys, map_size_empty.
    do 3 f_equal. lia.
Qed.

(** C8: for an id absent from the collection, [get_document] raises the
    "not found" exception (re-raised by its own handler) and leaves the
    state unchanged, while [delete_document] returns [True] and leaves the
    collection unchanged. *)
Theorem unknown_id_get_fails_delete_noop (id : str) (st : St) :
  st_store st !! id = None ->
  get_document id st = (Err (wrap err_get (not_found id)), st)
  /\ delete_document id st = (Ok true, st).
Proof.
  intros H. destruct st as [m l]; simpl in H. split.
  - unfold get_document, try_except, bind, col_get_ids, read_store, ret, throw; simpl.
    rewrite H. reflexivity.
  - unfold delete_document, try_except, bind, col_delete, modify_store, ret; simpl.
    rewrite delete_id by exact H. reflexivity.
Qed.

(** C10: the categories are tried in the order greetings, thanks,
    farewells: a question matching greetings gets the greeting reply even
    if it also matches another category, and one matching thanks (but no
    greeting) gets the thanks reply even if it also matches farewells. *)
Theorem short_circuit_priority (q : str) (st : St) :
  (matches py_lower Greeting q = true ->
     answer_question q st = (Ok reply_greeting, st))
  /\ (matches py_lower Greeting q = false -> matches py_lower Thanks q = true ->
     answer_question q st = (Ok reply_thanks, st))
  /\ (matches py_lower Greeting q = false -> matches py_lower Thanks q = false ->
     matches py_lower Farewell q = true ->
     answer_question q st = (Ok reply_goodbye, st)).
Proof.
  split; [|split].
  - intros HG. apply answer_question_short; [eapply matches_nonblank; exact HG|].
    rewrite check_simple_greeting_by_category, HG. reflexivity.
  - intros HG HT. apply answer_question_short; [eapply matches_nonblank; exact HT|].
    rewrite check_simple_greeting_by_category, HG, HT. reflexivity.
  - intros HG HT HF. apply answer_question_short; [eapply matches_nonblank; exact HF|].
    rewrite check_simple_greeting_by_category, HG, HT, HF. reflexivity.
Qed.

(** C1 (as amended): a question whose [lower().strip()] contains a keyword
    of some category gets, with no collaborator call and the state
    unchanged, the canned reply of the first category (in the order
    greetings, thanks, farewells) it matches; the three replies are
    distinct; a non-blank question matching no category goes on to
    retrieval: its first logged call is [search_similar_documents(q, 3)]. *)
Theorem answer_question_short_circuit :
  (forall (q : str) (st : St) (c : Category) (kw : str),
     In kw (keywords c) ->
     py_contains kw (py_strip (py_lower q)) = true ->
     exists c', matches py_lower c' q = true
       /\ (rank c' <= rank c)%nat
       /\ (forall c'', (rank c'' < rank c')%nat -> matches py_lower c'' q = false)
       /\ answer_question q st = (Ok (reply c'), st))
  /\ NoDup [reply Greeting; reply Thanks; reply Farewell]
  /\ (forall (q : str) (st : St),
        forallb py_isspace q = false ->
        (forall c, matches py_lower c q = false) ->
        exists rest, st_log (snd (answer_question q st)) = st_log st ++ CallSearch q 3 :: rest).
Proof.
  split; [|split].
  - intros q st c kw Hin Hkw.
    assert (Hc : matches py_lower c q = true).
    { unfold matches. apply existsb_exists. exists kw; split; assumption. }
    destruct (matches py_lower Greeting q) eqn:HG.
    + exists Greeting. split; [exact HG|]. split; [simpl; lia|].
      split; [intros c'' Hlt; simpl in Hlt; lia|].
      apply answer_question_short; [eapply matches_nonblank; exact HG|].
      rewrite check_simple_greeting_by_category, HG; reflexivity.
    + destruct (matches py_lower Thanks q) eqn:HT.
      * exists Thanks. split; [exact HT|].
        split; [destruct c; simpl; [congruence|lia|lia]|].
        split; [intros [] Hlt; simpl in Hlt; first [lia | exact HG]|].
        apply answer_question_short; [eapply matches_nonblank; exact HT|].
        rewrite check_simple_greeting_by_category, HG, HT; reflexivity.
      * destruct (matches py_lower Farewell q) eqn:HF.
        -- exists Farewell. split; [exact HF|].
           split; [destruct c; simpl; [congruence|congruence|lia]|].
           split; [intros [] Hlt; simpl in Hlt; first [lia | exact HG | exact HT]|].
           apply answer_question_short; [eapply matches_nonblank; exact HF|].
           rewrite check_simple_greeting_by_category, HG, HT, HF; reflexivity.
        -- exfalso. destruct c; congruence.
  - apply (bool_decide_unpack _); vm_compute; reflexivity.
  - intros q st Hb Hm.
    assert (Hc : check_simple_greeting py_lower q = None).
    { rewrite check_simple_greeting_by_category, !Hm; reflexivity. }
    rewrite (answer_question_pipeline q Hb Hc).
    destruct st as [m l].
    run_pipeline q; eexists; rewrite <- ?app_assoc; reflexivity.
Qed.

Ltac unfold_monad :=
  unfold search_similar_documents, generate, try_except, bind, emit, lift,
    read_store, ret, throw; simpl.

(** C3: every exception of [answer_question] is either the validation
    [ValueError] (blank question, state unchanged) or, for a non-blank
    question, the single [Exception("回答生成エラー: ...")] whose
    [__context__] is the original exception; an exception raised by the
    document service while retrieving (encoding or querying) or by the
    completion call is carried as that cause. *)
Theorem answer_question_error_kinds :
  (forall (q : str) (st st' : St) (e : Exc),
     answer_question q st = (Err e, st') ->
     (forallb py_isspace q = true /\ e = validation_error /\ st' = st)
     \/ (forallb py_isspace q = false /\ (exists cause, e = wrap err_answer cause)
         /\ e <> validation_error))
  /\ (forall (q : str) (st : St) (e : Exc),
        forallb py_isspace q = false ->
        check_simple_greeting py_lower q = None ->
        (encode q = Err e \/ exists v, encode q = Ok v /\ chroma_query (st_store st) v 3 = Err e) ->
        fst (answer_question q st) = Err (wrap err_answer (wrap err_search e)))
  /\ (forall (q : str) (st : St) (v : Vec) (docs : list Doc) (ctx : str) (e : Exc),
        forallb py_isspace q = false ->
        check_simple_greeting py_lower q = None ->
        encode q = Ok v -> chroma_query (st_store st) v 3 = Ok docs ->
        build_context docs = Ok ctx ->
        groq_create (chat_messages ctx q) gen_params = Err e ->
        fst (answer_question q st) = Err (wrap err_answer e)).
Proof.
  split; [|split].
  - intros q st st' e H.
    destruct (forallb py_isspace q) eqn:Hb.
    + left. rewrite (answer_question_blank q st Hb) in H.
      injection H as <- <-. auto.
    + right. destruct (check_simple_greeting py_lower q) as [r|] eqn:Hc.
      * rewrite (answer_question_short q st r Hb Hc) in H. discriminate.
      * rewrite (answer_question_pipeline q Hb Hc) in H.
        destruct st as [m l]. revert H.
        run_pipeline q; intros H; try discriminate H;
          injection H as <- _; (split; [reflexivity|split; [eexists; reflexivity|discriminate]]).
  - intros q st e Hb Hc Hf.
    rewrite (answer_question_pipeline q Hb Hc).
    destruct st as [m l]; simpl in Hf.
    destruct Hf as [He|[v [Hv Hq]]]; unfold_monad.
    + rewrite He. reflexivity.
    + rewrite Hv; simpl. rewrite Hq. reflexivity.
  - intros q st v docs ctx e Hb Hc Hv Hq Hctx Hg.
    rewrite (answer_question_pipeline q Hb Hc).
    destruct st as [m l]; simpl in Hq.
    unfold_monad. rewrite Hv; simpl. rewrite Hq; simpl. rewrite Hctx; simpl.
    rewrite Hg. reflexivity.
Qed.

(** C5: a non-blank question that matches no short-circuit category makes
    exactly one [search_similar_documents(question, 3)] call and then
    exactly one completion call, whose user message is the context block
    followed by the literal question; the answer is the completion text
    verbatim. *)
Theorem answer_question_retrieval (q : str) (st : St) (v : Vec) (docs : list Doc) (ctx a : str) :
  forallb py_isspace q = false ->
  check_simple_greeting py_lower q = None ->
  encode q = Ok v ->
  chroma_query (st_store st) v 3 = Ok docs ->
  build_context docs = Ok ctx ->
  groq_create (chat_messages ctx q) gen_params = Ok (Some a) ->
  answer_question q st =
    (Ok a, {| st_store := st_store st;
              st_log := st_log st ++ [CallSearch q 3; CallGenerate (chat_messages ctx q) gen_params] |})
  /\ In {| role := role_user;
           content := user_prompt_pre ++ ctx ++ user_prompt_mid ++ q ++ user_prompt_post |}
        (chat_messages ctx q).
Proof.
  intros Hb Hc Hv Hq Hctx Hg. split.
  - rewrite (answer_question_pipeline q Hb Hc).
    destruct st as [m l]; simpl in Hq.
    unfold_monad. rewrite Hv; simpl. rewrite Hq; simpl. rewrite Hctx; simpl.
    rewrite Hg; simpl. rewrite <- app_assoc. reflexivity.
  - right; left. reflexivity.
Qed.

(** C6: a second [add_document] on the same id replaces the whole record
    (embedding, text and metadata) by the one of the second call and
    returns its embedding; [get_document] then returns the second title,
    text and metadata and the embedding [encode] gave for the second text.
    The first call returns the embedding of the first text. *)
Theorem add_document_overwrite (id t1 x1 n1 t2 x2 n2 : str) (st : St) (v2 : Vec) :
  encode x2 = Ok v2 ->
  add_document id t2 x2 n2 (snd (add_document id t1 x1 n1 st)) =
    (Ok {| vector_id := id; embedding := v2 |},
     {| st_store := <[id := {| r_embedding := v2; r_document := x2;
                               r_metadata := {| m_title := t2; m_created_at := n2;
                                                m_text_length := Z.of_nat (length x2) |} |}]>
                      (st_store (snd (add_document id t1 x1 n1 st)));
        st_log := st_log (snd (add_document id t1 x1 n1 st)) |})
  /\ fst (get_document id (snd (add_document id t2 x2 n2 (snd (add_document id t1 x1 n1 st))))) =
       Ok {| g_id := id; g_title := t2; g_text := x2;
             g_metadata := {| m_title := t2; m_created_at := n2;
                              m_text_length := Z.of_nat (length x2) |};
             g_embedding := v2 |}
  /\ (forall v1, encode x1 = Ok v1 ->
        fst (add_document id t1 x1 n1 st) = Ok {| vector_id := id; embedding := v1 |}).
Proof.
  intros He.
  assert (Hadd : forall s, add_document id t2 x2 n2 s =
    (Ok {| vector_id := id; embedding := v2 |},
     {| st_store := <[id := {| r_embedding := v2; r_document := x2;
                               r_metadata := {| m_title := t2; m_created_at := n2;
                                                m_text_length := Z.of_nat (length x2) |} |}]>
                      (st_store s);
        st_log := st_log s |})).
  { intros [m l].
    unfold add_document, col_get_ids, col_upsert, modify_store; unfold_monad.
    rewrite He. reflexivity. }
  split; [apply Hadd|split].
  - rewrite Hadd.
    unfold get_document, col_get_ids; unfold_monad.
    rewrite lookup_insert_eq. reflexivity.
  - intros v1 H1. destruct st as [m l].
    unfold add_document, col_get_ids, col_upsert, modify_store; unfold_monad.
    rewrite H1. reflexivity.
Qed.

(** Each document whose metadata is a dict contributes its formatted
    entry, if its text is non-empty. *)
Lemma context_parts_formatted (docs : list Doc) (i : nat) :
  (forall d, In d docs -> d_metadata d <> MetaNone) ->
  context_parts i docs = Ok (omap (fun x => x) (imap (fun k d => format_entry (i + k) d) docs)).
Proof.
  revert i; induction docs as [|d ds IH]; intros i Hmd; [reflexivity|].
  simpl. destruct (d_metadata d) as [|t] eqn:Emd.
  - exfalso; apply (Hmd d); [left; reflexivity|exact Emd].
  - rewrite IH by (intros d' Hd'; apply Hmd; right; exact Hd').
    assert (Himap : imap (fun k d => format_entry (S i + k) d) ds
                    = imap ((fun k d => format_entry (i + k) d) ∘ S) ds).
    { apply imap_ext. intros k x _. unfold compose. f_equal. lia. }
    rewrite Himap. simpl.
    replace (format_entry (i + 0) d) with
      (match d_document d with
       | Some (c :: cs) => Some (title_open ++ entry_title i t ++ title_close ++ c :: cs)
       | _ => None
       end)
      by (unfold format_entry; rewrite Emd, Nat.add_0_r;
          destruct (d_document d) as [[|]|]; reflexivity).
    destruct (d_document d) as [[|c cs]|]; reflexivity.
Qed.

Lemma omap_imap_none (docs : list Doc) (f : nat -> Doc -> option str) :
  (forall k d, In d docs -> f k d = None) -> omap (fun x => x) (imap f docs) = [].
Proof.
  revert f; induction docs as [|d ds IH]; intros f Hf; [reflexivity|].
  rewrite imap_cons. simpl. rewrite (Hf 0%nat d) by (left; reflexivity).
  apply IH. intros k d' Hd'. apply Hf. right; exact Hd'.
Qed.

(** C4 (as amended): when every retrieved document's metadata is a dict
    (as for all documents written by [add_document]), the context is the
    entries ["【" + title + "】\n" + text] of the documents with non-empty
    text, in order, joined by a blank line, where a missing title is
    ["文書N"] with [N] the position of the document (from 1); it is the
    fixed sentinel when the list is empty or no document has non-empty
    text. *)
Theorem build_context_format (docs : list Doc) :
  (forall d, In d docs -> d_metadata d <> MetaNone) ->
  build_context docs =
    Ok (match formatted_entries docs with
        | [] => no_docs_sentinel
        | parts => py_join part_sep parts
        end)
  /\ ((forall d, In d docs -> match d_document d with Some (_ :: _) => False | _ => True end) ->
      build_context docs = Ok no_docs_sentinel).
Proof.
  intros Hmd.
  assert (Hfmt : build_context docs =
    Ok (match formatted_entries docs with
        | [] => no_docs_sentinel
        | parts => py_join part_sep parts
        end)).
  { unfold build_context, formatted_entries.
    destruct docs as [|d ds]; [reflexivity|].
    rewrite (context_parts_formatted (d :: ds) 1 Hmd).
    destruct (omap _ _); reflexivity. }
  split; [exact Hfmt|].
  intros Hnone. rewrite Hfmt.
  unfold formatted_entries. rewrite omap_imap_none; [reflexivity|].
  intros k d Hd. specialize (Hnone d Hd). unfold format_entry.
  destruct (d_document d) as [[|c cs]|]; [reflexivity|contradiction|reflexivity].
Qed.

(** ** Further properties of the services and the routes *)

(** *** Helpers *)

Lemma add_document_ok (id title text now : str) (v : Vec) (s : St) :
  encode text = Ok v ->
  add_document id title text now s =
    (Ok {| vector_id := id; embedding := v |},
     {| st_store := <[id := {| r_embedding := v; r_document := text;
                               r_metadata := {| m_title := title; m_created_at := now;
                                                m_text_length := Z.of_nat (length text) |} |}]>
                      (st_store s);
        st_log := st_log s |}).
Proof.
  intros He. destruct s as [m l].
  unfold add_document, col_get_ids, col_upsert, modify_store; unfold_monad.
  rewrite He. reflexivity.
Qed.

Lemma delete_all_documents_eq (st : St) :
  delete_all_documents st =
    (Ok {| success := true; deleted_count := Z.of_nat (size (st_store st)) |},
     {| st_store := ∅; st_log := st_log st |}).
Proof.
  destruct st as [m l].
  unfold delete_all_documents, try_except, bind, col_count, col_get_all_ids,
    col_delete, modify_store, read_store, ret; simpl.
  destruct (map fst (map_to_list m)) as [|k ks] eqn:E.
  - assert (Hm : m = ∅).
    { apply map_to_list_empty_iff. destruct (map_to_list m); [reflexivity|discriminate]. }
    subst m. simpl. rewrite map_size_empty. reflexivity.
  - rewrite <- E. simpl. rewrite delete_all_keys, map_size_empty.
    do 3 f_equal. lia.
Qed.

Lemma delete_document_eq (id : str) (st : St) :
  delete_document id st = (Ok true, {| st_store := delete id (st_store st); st_log := st_log st |}).
Proof. destruct st as [m l]. reflexivity. Qed.

Lemma get_document_absent (id : str) (st : St) :
  st_store st !! id = None -> get_document id st = (Err (wrap err_get (not_found id)), st).
Proof.
  intros H. destruct st as [m l]; simpl in H.
  unfold get_document, try_except, bind, col_get_ids, read_store, ret, throw; simpl.
  rewrite H. reflexivity.
Qed.

Lemma get_all_documents_eq (st : St) :
  get_all_documents st =
    (Ok (map (fun ir => {| l_id := fst ir; l_document := r_document (snd ir);
                           l_metadata := r_metadata (snd ir) |})
             (map_to_list (st_store st))), st).
Proof. destruct st; reflexivity. Qed.

Lemma get_collection_info_eq (st : St) :
  get_collection_info st =
    (Ok {| ci_name := collection_name; ci_metadata := collection_metadata;
           ci_count := Z.of_nat (size (st_store st)) |}, st).
Proof. destruct st; reflexivity. Qed.

Lemma py_str_int_of_nat (n : nat) : py_str_int (Z.of_nat n) = py_str_nat n.
Proof.
  unfold py_str_int. destruct (Z.ltb_spec (Z.of_nat n) 0) as [H|H]; [lia|].
  rewrite Nat2Z.id. reflexivity.
Qed.

Lemma map_fst_fmap {A B} (l : list (A * B)) : map fst l = l.*1.
Proof. induction l as [|x l IH]; simpl; [reflexivity|]. rewrite IH; reflexivity. Qed.

Lemma size_delete_lookup (m : gmap str Rec) (i : str) (r : Rec) :
  m !! i = Some r -> size m = S (size (delete i m)).
Proof.
  intros H.
  rewrite <- (map_size_insert_None i r (delete i m)) by apply lookup_delete_eq.
  rewrite insert_delete_eq, insert_id by exact H. reflexivity.
Qed.

Lemma answer_question_err_nonblank (q : str) (st st' : St) (e : Exc) :
  forallb py_isspace q = false -> answer_question q st = (Err e, st') ->
  exists cause, e = wrap err_answer cause.
Proof.
  intros Hb H.
  destruct (check_simple_greeting py_lower q) as [r|] eqn:Hc.
  - rewrite (answer_question_short q st r Hb Hc) in H. discriminate.
  - rewrite (answer_question_pipeline q Hb Hc) in H.
    destruct st as [m l]. revert H.
    run_pipeline q; intros H; try discriminate H; injection H as <- _; eexists; reflexivity.
Qed.

Lemma context_parts_meta_none (docs : list Doc) (i : nat) (d : Doc) :
  In d docs -> d_metadata d = MetaNone ->
  context_parts i docs = Err (PyExc KAttributeError none_get_msg None).
Proof.
  revert i; induction docs as [|d0 ds IH]; intros i Hin Hmd; [destruct Hin|].
  simpl. destruct (d_metadata d0) as [|t] eqn:E; [reflexivity|].
  destruct Hin as [->|Hin]; [congruence|].
  rewrite (IH (S i) Hin Hmd). reflexivity.
Qed.

(** *** Documents *)

(** X1: when the embedding model fails, [add_document] raises the save
    exception wrapping the failure and leaves the state unchanged (nothing
    is upserted); [POST /api/documents] then answers 500 and its message
    carries the save prefix twice, once from the service and once from the
    route. *)
Theorem add_document_encode_error (id title text now : str) (st : St) (e : Exc) :
  encode text = Err e ->
  add_document id title text now st = (Err (wrap err_save e), st)
  /\ route_add_document id title text now st =
       (Ok (HttpJsonError 500 (err_save ++ err_save ++ exc_str e)), st).
Proof.
  intros He.
  assert (H : add_document id title text now st = (Err (wrap err_save e), st)).
  { destruct st as [m l].
    unfold add_document, col_get_ids, col_upsert, modify_store; unfold_monad.
    rewrite He. reflexivity. }
  split; [exact H|].
  unfold route_add_document, handle_route. rewrite H. reflexivity.
Qed.

(** X2: a successful [add_document] makes [POST /api/documents] answer
    with the embedding, touches no other id, and raises the collection
    count by one for a new id and by zero for an existing one. *)
Theorem add_document_success (id title text now : str) (st : St) (v : Vec) :
  encode text = Ok v ->
  route_add_document id title text now st = (Ok (HttpOk v), snd (add_document id title text now st))
  /\ (forall j, j <> id -> st_store (snd (add_document id title text now st)) !! j = st_store st !! j)
  /\ fst (get_collection_info (snd (add_document id title text now st))) =
       Ok {| ci_name := collection_name; ci_metadata := collection_metadata;
             ci_count := Z.of_nat (size (st_store st))
                         + match st_store st !! id with Some _ => 0 | None => 1 end |}.
Proof.
  intros He. split; [|split].
  - unfold route_add_document, handle_route.
    rewrite (add_document_ok id title text now v st He). reflexivity.
  - intros j Hj. rewrite (add_document_ok id title text now v st He). simpl.
    apply lookup_insert_ne. congruence.
  - rewrite (add_document_ok id title text now v st He), get_collection_info_eq. simpl.
    rewrite map_size_insert.
    destruct (st_store st !! id); cbn; do 2 f_equal; lia.
Qed.

(** X3: [delete_document] removes exactly its id: it returns [True], a
    later [get_document] of that id raises the wrapped "not found"
    exception, every other id keeps its record, the count drops by one if
    the id was present and is unchanged otherwise, and
    [DELETE /api/documents/{id}] answers success in both cases. *)
Theorem delete_document_removes (id : str) (st : St) :
  delete_document id st = (Ok true, {| st_store := delete id (st_store st); st_log := st_log st |})
  /\ get_document id (snd (delete_document id st)) =
       (Err (wrap err_get (not_found id)), snd (delete_document id st))
  /\ (forall j, j <> id -> st_store (snd (delete_document id st)) !! j = st_store st !! j)
  /\ fst (get_collection_info (snd (delete_document id st))) =
       Ok {| ci_name := collection_name; ci_metadata := collection_metadata;
             ci_count := Z.of_nat (size (st_store st))
                         - match st_store st !! id with Some _ => 1 | None => 0 end |}
  /\ route_delete_document id st =
       (Ok (HttpOk {| dr_success := true; dr_message := delete_ok_message |}),
        snd (delete_document id st)).
Proof.
  rewrite !delete_document_eq. split; [reflexivity|]. split; [|split; [|split]].
  - apply get_document_absent. apply lookup_delete_eq.
  - intros j Hj. simpl. apply lookup_delete_ne. congruence.
  - rewrite get_collection_info_eq. simpl.
    destruct (st_store st !! id) as [r|] eqn:E.
    + rewrite (size_delete_lookup (st_store st) id r E). do 2 f_equal. lia.
    + rewrite delete_id by exact E. do 2 f_equal. lia.
  - unfold route_delete_document, handle_route. rewrite delete_document_eq. reflexivity.
Qed.

(** X4: [get_all_documents] lists the collection exactly: one entry per
    stored id (so as many entries as [count()]), no id twice, and an entry
    [{id, document, metadata}] is listed iff the collection holds that
    text and metadata under that id; the state is unchanged. *)
Theorem get_all_documents_lists_store (st : St) :
  exists L, get_all_documents st = (Ok L, st)
    /\ length L = size (st_store st)
    /\ NoDup (map l_id L)
    /\ (forall i d md, In {| l_id := i; l_document := d; l_metadata := md |} L <->
          exists emb, st_store st !! i = Some {| r_embedding := emb; r_document := d; r_metadata := md |}).
Proof.
  eexists. split; [apply get_all_documents_eq|]. split; [|split].
  - rewrite length_map. apply length_map_to_list.
  - rewrite map_map. simpl. rewrite map_fst_fmap. apply NoDup_fst_map_to_list.
  - intros i d md. rewrite in_map_iff. split.
    + intros [[i' r] [Heq Hin]]. simpl in Heq. injection Heq as -> <- <-.
      exists (r_embedding r). destruct r as [emb doc md']; simpl.
      apply elem_of_map_to_list, list_elem_of_In. exact Hin.
    + intros [emb Hl]. exists (i, {| r_embedding := emb; r_document := d; r_metadata := md |}). split; [reflexivity|].
      apply list_elem_of_In, elem_of_map_to_list. exact Hl.
Qed.

(** X5: the two listings agree: [GET /api/documents] reports as [count]
    the number of documents it lists, which is the [count] reported by
    [GET /api/documents/info]; neither changes the state. *)
Theorem listing_count_matches_info (st : St) :
  exists L, route_get_all_documents st = (Ok (HttpOk (L, Z.of_nat (length L))), st)
    /\ route_get_collection_info st =
         (Ok (HttpOk {| ci_name := collection_name; ci_metadata := collection_metadata;
                        ci_count := Z.of_nat (length L) |}), st).
Proof.
  eexists. split.
  - unfold route_get_all_documents, handle_route. rewrite get_all_documents_eq. reflexivity.
  - unfold route_get_collection_info, handle_route. rewrite get_collection_info_eq.
    rewrite length_map, length_map_to_list. reflexivity.
Qed.

(** X6: after [delete_all_documents] the collection lists no document,
    and a second [delete_all_documents] reports [deleted_count] 0 and
    changes nothing. *)
Theorem delete_all_documents_then_empty (st : St) :
  get_all_documents (snd (delete_all_documents st)) = (Ok [], snd (delete_all_documents st))
  /\ delete_all_documents (snd (delete_all_documents st)) =
       (Ok {| success := true; deleted_count := 0 |}, snd (delete_all_documents st)).
Proof.
  rewrite delete_all_documents_eq. simpl. split.
  - rewrite get_all_documents_eq. simpl. rewrite map_to_list_empty. reflexivity.
  - rewrite delete_all_documents_eq. simpl. rewrite map_size_empty. reflexivity.
Qed.

(** X7: [DELETE /api/documents] answers success with the number of
    documents the collection held and the message ["N件の文書を削除しました"]
    where [N] is that number in decimal (never negative), and empties the
    collection. *)
Theorem route_delete_all_documents_message (st : St) :
  route_delete_all_documents st =
    (Ok (HttpOk {| da_success := true; da_deleted_count := Z.of_nat (size (st_store st));
                   da_message := py_str_nat (size (st_store st)) ++ deleted_suffix |}),
     {| st_store := ∅; st_log := st_log st |}).
Proof.
  unfold route_delete_all_documents, handle_route. rewrite delete_all_documents_eq. simpl.
  rewrite py_str_int_of_nat. reflexivity.
Qed.

(** X8: [add_document] of a new id followed by [delete_document] of the
    same id gives back the original state. *)
Theorem add_then_delete_restores (id title text now : str) (st : St) (v : Vec) :
  encode text = Ok v -> st_store st !! id = None ->
  snd (delete_document id (snd (add_document id title text now st))) = st.
Proof.
  intros He Hn. rewrite (add_document_ok id title text now v st He), delete_document_eq. simpl.
  rewrite delete_insert_id by exact Hn. destruct st; reflexivity.
Qed.

(** X9: for an id absent from the collection, [GET /api/documents/{id}]
    answers 404 with the route's prefix, the service's prefix and the
    "not found" message, one after the other, while
    [DELETE /api/documents/{id}] still answers success; neither changes the
    state. *)
Theorem absent_id_routes (id : str) (st : St) :
  st_store st !! id = None ->
  route_get_document id st =
    (Ok (HttpJsonError 404 (route_err_get ++ err_get ++ not_found_pre ++ id ++ not_found_post)), st)
  /\ route_delete_document id st =
       (Ok (HttpOk {| dr_success := true; dr_message := delete_ok_message |}), st).
Proof.
  intros H. split.
  - unfold route_get_document, handle_route. rewrite (get_document_absent id st H). reflexivity.
  - unfold route_delete_document, handle_route. rewrite delete_document_eq.
    rewrite delete_id by exact H. destruct st; reflexivity.
Qed.

(** X10: [POST /api/documents/search] logs exactly one search call and
    leaves the collection unchanged; it answers with the rows of the query,
    or, when encoding or querying fails, 500 with the route's prefix
    followed by the service's prefix and the failure's message. *)
Theorem route_search_documents_outcome (q : str) (n : Z) (st : St) :
  route_search_documents q n st =
    (Ok match encode q with
        | Err e => HttpJsonError 500 (route_err_search ++ err_search ++ exc_str e)
        | Ok v =>
            match chroma_query (st_store st) v n with
            | Ok docs => HttpOk docs
            | Err e => HttpJsonError 500 (route_err_search ++ err_search ++ exc_str e)
            end
        end,
     {| st_store := st_store st; st_log := st_log st ++ [CallSearch q n] |}).
Proof.
  destruct st as [m l].
  unfold route_search_documents, handle_route; unfold_monad.
  destruct (encode q) as [v|e]; simpl; [|reflexivity].
  destruct (chroma_query m v n); reflexivity.
Qed.

(** *** Chat *)

(** X11: when retrieval fails (encoding or querying), [answer_question]
    raises the answer exception wrapping the search exception, after the
    single search call and with no completion call. *)
Theorem answer_question_retrieval_failure (q : str) (st : St) (e : Exc) :
  forallb py_isspace q = false ->
  check_simple_greeting py_lower q = None ->
  (encode q = Err e \/ exists v, encode q = Ok v /\ chroma_query (st_store st) v 3 = Err e) ->
  answer_question q st =
    (Err (wrap err_answer (wrap err_search e)),
     {| st_store := st_store st; st_log := st_log st ++ [CallSearch q 3] |}).
Proof.
  intros Hb Hc Hf.
  rewrite (answer_question_pipeline q Hb Hc).
  destruct st as [m l]; simpl in Hf.
  destruct Hf as [He|[v [Hv Hq]]]; unfold_monad.
  - rewrite He. reflexivity.
  - rewrite Hv; simpl. rewrite Hq. reflexivity.
Qed.

(** X12: if any retrieved row has a [None] metadata, [_build_context]
    raises the [AttributeError] of [None.get] (whatever the row's text and
    position), and [answer_question] raises the answer exception wrapping
    it, with no completion call. *)
Theorem answer_question_metadata_none (q : str) (st : St) (v : Vec) (docs : list Doc) (d : Doc) :
  forallb py_isspace q = false ->
  check_simple_greeting py_lower q = None ->
  encode q = Ok v -> chroma_query (st_store st) v 3 = Ok docs ->
  In d docs -> d_metadata d = MetaNone ->
  build_context docs = Err (PyExc KAttributeError none_get_msg None)
  /\ answer_question q st =
       (Err (wrap err_answer (PyExc KAttributeError none_get_msg None)),
        {| st_store := st_store st; st_log := st_log st ++ [CallSearch q 3] |}).
Proof.
  intros Hb Hc Hv Hq Hin Hmd.
  assert (Hctx : build_context docs = Err (PyExc KAttributeError none_get_msg None)).
  { destruct docs as [|d0 ds]; [destruct Hin|].
    unfold build_context. rewrite (context_parts_meta_none (d0 :: ds) 1 d Hin Hmd). reflexivity. }
  split; [exact Hctx|].
  rewrite (answer_question_pipeline q Hb Hc).
  destruct st as [m l]; simpl in Hq.
  unfold_monad. rewrite Hv; simpl. rewrite Hq; simpl. rewrite Hctx. reflexivity.
Qed.

(** X13: when the completion's [message.content] is [None], the [len]
    of the log line raises a [TypeError] and [answer_question] raises the
    answer exception wrapping it, after both calls. *)
Theorem answer_question_none_content (q : str) (st : St) (v : Vec) (docs : list Doc) (ctx : str) :
  forallb py_isspace q = false ->
  check_simple_greeting py_lower q = None ->
  encode q = Ok v -> chroma_query (st_store st) v 3 = Ok docs ->
  build_context docs = Ok ctx ->
  groq_create (chat_messages ctx q) gen_params = Ok None ->
  answer_question q st =
    (Err (wrap err_answer (PyExc KTypeError none_len_msg None)),
     {| st_store := st_store st;
        st_log := st_log st ++ [CallSearch q 3; CallGenerate (chat_messages ctx q) gen_params] |}).
Proof.
  intros Hb Hc Hv Hq Hctx Hg.
  rewrite (answer_question_pipeline q Hb Hc).
  destruct st as [m l]; simpl in Hq.
  unfold_monad. rewrite Hv; simpl. rewrite Hq; simpl. rewrite Hctx; simpl.
  rewrite Hg; simpl. rewrite <- app_assoc. reflexivity.
Qed.

(** X14: [POST /api/chat] always answers: a blank message gets 400 with
    the validation message and no state change; a non-blank one gets the
    reply of [process_message] or a 500 whose message starts with the
    route's prefix and the answer prefix. A non-blank message never gets
    a 400, whatever exception a collaborator raises, since the service
    re-raises every failure as a plain [Exception]. *)
Theorem receive_chat_outcome (message : str) (st : St) :
  (forallb py_isspace message = true ->
     receive_chat message st = (Ok (HttpJsonError 400 msg_empty_question), st))
  /\ (forallb py_isspace message = false ->
        (exists r, receive_chat message st = (Ok (HttpOk r), snd (process_message message st)))
        \/ (exists rest, receive_chat message st =
              (Ok (HttpJsonError 500 (route_err_chat ++ err_answer ++ rest)),
               snd (process_message message st)))).
Proof.
  split.
  - intros H. unfold receive_chat, process_message, answer_question.
    rewrite (proj2 (py_strip_nil message) H). reflexivity.
  - intros Hb. unfold receive_chat.
    destruct (process_message message st) as [[r|e] s'] eqn:E.
    + left. exists r. reflexivity.
    + right. destruct (answer_question_err_nonblank message st s' e Hb E) as [c ->].
      exists (exc_str c). reflexivity.
Qed.

End Services.

Arguments HttpOk {A} body.
Arguments HttpJsonError {A} status error.

(** ** Concrete checks *)

Lemma py_isspace_not_upper (c : Z) : py_isspace c = true -> ~ (65 <= c <= 90).
Proof.
  unfold py_isspace. intros H.
  repeat rewrite orb_true_iff in H. repeat rewrite andb_true_iff in H.
  rewrite ?Z.leb_le, ?Z.eqb_eq in H. lia.
Qed.

Lemma ascii_lower_blank (s : str) : forallb py_isspace s = true -> ascii_lower s = s.
Proof.
  induction s as [|c s IH]; simpl; [reflexivity|].
  intros H. apply andb_true_iff in H as [Hc Hs].
  rewrite (IH Hs).
  destruct ((65 <=? c) && (c <=? 90)) eqn:E; [|reflexivity].
  exfalso. apply (py_isspace_not_upper c Hc).
  apply andb_true_iff in E as [E1 E2]. apply Z.leb_le in E1, E2. lia.
Qed.

(** C1: ["thank you for this"] contains the thanks keyword ["thank"], but
    ["this"] contains the greeting keyword ["hi"]: the reply is the
    greeting one, not the thanks one. *)
Lemma thanks_question_gets_greeting_reply :
  In [116; 104; 97; 110; 107] (keywords Thanks)
  /\ py_contains [116; 104; 97; 110; 107] (py_strip (ascii_lower q_thank_you_for_this)) = true
  /\ answer_question unit (fun _ => Ok tt) (fun _ _ _ => Ok []) (fun _ _ => Ok None)
       ascii_lower q_thank_you_for_this {| st_store := ∅; st_log := [] |}
     = (Ok reply_greeting, {| st_store := ∅; st_log := [] |})
  /\ reply_greeting <> reply Thanks.
Proof.
  split; [simpl; tauto|].
  split; [vm_compute; reflexivity|].
  split; [vm_compute; reflexivity|].
  vm_compute; discriminate.
Qed.

Lemma answer_question_short_circuit_witness :
  exists c', matches ascii_lower c' q_hello = true
    /\ (rank c' <= rank Greeting)%nat
    /\ (forall c'', (rank c'' < rank c')%nat -> matches ascii_lower c'' q_hello = false)
    /\ answer_question unit (fun _ => Ok tt) (fun _ _ _ => Ok []) (fun _ _ => Ok None)
         ascii_lower q_hello {| st_store := ∅; st_log := [] |}
       = (Ok (reply c'), {| st_store := ∅; st_log := [] |}).
Proof.
  destruct (answer_question_short_circuit unit (fun _ => Ok tt) (fun _ _ _ => Ok [])
              (fun _ _ => Ok None) ascii_lower ascii_lower_blank) as [H _].
  apply (H q_hello {| st_store := ∅; st_log := [] |} Greeting q_hello).
  - simpl; tauto.
  - vm_compute; reflexivity.
Defined.

Lemma answer_question_blank_witness :
  forallb py_isspace [32; 32; 32] = true
  /\ answer_question unit (fun _ => Ok tt) (fun _ _ _ => Ok []) (fun _ _ => Ok None)
       ascii_lower [32; 32; 32] {| st_store := ∅; st_log := [] |}
     = (Err validation_error, {| st_store := ∅; st_log := [] |}).
Proof.
  split; [reflexivity|].
  apply answer_question_blank. reflexivity.
Defined.

Lemma answer_question_error_kinds_witness :
  fst (answer_question unit (fun _ => Err (PyExc (KOther [79]) [] None)) (fun _ _ _ => Ok [])
         (fun _ _ => Ok None) ascii_lower q_hours {| st_store := ∅; st_log := [] |})
  = Err (wrap err_answer (wrap err_search (PyExc (KOther [79]) [] None))).
Proof.
  destruct (answer_question_error_kinds unit (fun _ => Err (PyExc (KOther [79]) [] None))
              (fun _ _ _ => Ok []) (fun _ _ => Ok None) ascii_lower) as [_ [H _]].
  apply H.
  - reflexivity.
  - vm_compute; reflexivity.
  - left; reflexivity.
Defined.

(** C4: the spec's two-document example gives ["【T1】\nC1\n\n【T2】\nC2"],
    not ["[T1]\nC1\n\n[T2]\nC2"]. *)
Lemma build_context_uses_lenticular_brackets :
  build_context docs_t1_t2
    = Ok (title_open ++ [84; 49] ++ title_close ++ [67; 49] ++ part_sep
          ++ title_open ++ [84; 50] ++ title_close ++ [67; 50])
  /\ build_context docs_t1_t2 <> Ok ascii_bracket_context.
Proof.
  split; vm_compute; [reflexivity|discriminate].
Qed.

Lemma build_context_format_witness :
  (forall d, In d docs_t1_t2 -> d_metadata d <> MetaNone)
  /\ build_context docs_t1_t2
     = Ok (title_open ++ [84; 49] ++ title_close ++ [67; 49] ++ part_sep
           ++ title_open ++ [84; 50] ++ title_close ++ [67; 50]).
Proof.
  assert (Hmd : forall d, In d docs_t1_t2 -> d_metadata d <> MetaNone).
  { intros d Hd. simpl in Hd. destruct Hd as [<-|[<-|[]]]; discriminate. }
  split; [exact Hmd|].
  rewrite (proj1 (build_context_format docs_t1_t2 Hmd)).
  vm_compute; reflexivity.
Defined.

(** The spec's end-to-end example: the store returns the "Hours" document
    for "What are your hours?". *)
Lemma answer_question_retrieval_witness :
  answer_question unit (fun _ => Ok tt) (fun _ _ _ => Ok [hours_doc])
    (fun _ _ => Ok (Some [111; 107])) ascii_lower q_hours {| st_store := ∅; st_log := [] |}
  = (Ok [111; 107],
     {| st_store := ∅;
        st_log := [CallSearch q_hours 3;
                   CallGenerate
                     (chat_messages (title_open ++ [72; 111; 117; 114; 115] ++ title_close
                                     ++ [87; 101; 32; 97; 114; 101; 32; 111; 112; 101; 110; 32;
                                         57; 32; 116; 111; 32; 53; 46]) q_hours)
                     gen_params] |}).
Proof.
  apply (answer_question_retrieval unit (fun _ => Ok tt) (fun _ _ _ => Ok [hours_doc])
           (fun _ _ => Ok (Some [111; 107])) ascii_lower q_hours
           {| st_store := ∅; st_log := [] |} tt [hours_doc]).
  - reflexivity.
  - vm_compute; reflexivity.
  - reflexivity.
  - reflexivity.
  - vm_compute; reflexivity.
  - reflexivity.
Defined.

(** [add_document("x", "A", "t1")] then [add_document("x", "B", "t2")]. *)
Lemma add_document_overwrite_witness :
  fst (get_document unit [120]
         (snd (add_document unit (fun _ => Ok tt) [120] [66] [116; 50] [49]
                 (snd (add_document unit (fun _ => Ok tt) [120] [65] [116; 49] [48]
                         {| st_store := ∅; st_log := [] |})))))
  = Ok {| g_id := [120]; g_title := [66]; g_text := [116; 50];
          g_metadata := {| m_title := [66]; m_created_at := [49]; m_text_length := 2 |};
          g_embedding := tt |}.
Proof.
  apply (add_document_overwrite unit (fun _ => Ok tt) [120] [65] [116; 49] [48] [66] [116; 50] [49]
           {| st_store := ∅; st_log := [] |} tt).
  reflexivity.
Defined.

Lemma unknown_id_get_fails_delete_noop_witness :
  get_document unit [120] {| st_store := ∅; st_log := [] |}
    = (Err (wrap err_get (not_found [120])), {| st_store := ∅; st_log := [] |})
  /\ delete_document unit [120] {| st_store := ∅; st_log := [] |}
    = (Ok true, {| st_store := ∅; st_log := [] |}).
Proof.
  apply unknown_id_get_fails_delete_noop. reflexivity.
Defined.

(** ["hi, thanks, bye"] matches all three categories and gets the greeting
    reply. *)
Lemma short_circuit_priority_witness :
  matches ascii_lower Greeting q_hi_thanks_bye = true
  /\ matches ascii_lower Thanks q_hi_thanks_bye = true
  /\ matches ascii_lower Farewell q_hi_thanks_bye = true
  /\ answer_question unit (fun _ => Ok tt) (fun _ _ _ => Ok []) (fun _ _ => Ok None)
       ascii_lower q_hi_thanks_bye {| st_store := ∅; st_log := [] |}
     = (Ok reply_greeting, {| st_store := ∅; st_log := [] |}).
Proof.
  split; [vm_compute; reflexivity|].
  split; [vm_compute; reflexivity|].
  split; [vm_compute; reflexivity|].
  apply (short_circuit_priority unit (fun _ => Ok tt) (fun _ _ _ => Ok []) (fun _ _ => Ok None)
           ascii_lower ascii_lower_blank).
  vm_compute; reflexivity.
Defined.

(** An encoding failure on ["t"]: nothing is stored. *)
Lemma add_document_encode_error_witness :
  add_document unit (fun _ => Err (PyExc KValueError [101] None)) [120] [65] [116] [48]
    {| st_store := ∅; st_log := [] |}
  = (Err (wrap err_save (PyExc KValueError [101] None)), {| st_store := ∅; st_log := [] |}).
Proof.
  refine (proj1 (add_document_encode_error unit (fun _ => Err (PyExc KValueError [101] None))
                   [120] [65] [116] [48] {| st_store := ∅; st_log := [] |}
                   (PyExc KValueError [101] None) _)).
  reflexivity.
Defined.

(** Adding ["x"] to a collection holding ["y"] leaves ["y"] alone. *)
Lemma add_document_success_witness :
  st_store unit (snd (add_document unit (fun _ => Ok tt) [120] [65] [116] [48]
                  {| st_store := <[[121] := {| r_embedding := tt; r_document := [117];
                                               r_metadata := {| m_title := [66]; m_created_at := [48];
                                                                m_text_length := 1 |} |}]> ∅;
                     st_log := [] |})) !! [121]
  = Some {| r_embedding := tt; r_document := [117];
            r_metadata := {| m_title := [66]; m_created_at := [48]; m_text_length := 1 |} |}.
Proof.
  refine (proj1 (proj2 (add_document_success unit (fun _ => Ok tt) [] [120] [65] [116] [48]
                          {| st_store := <[[121] := {| r_embedding := tt; r_document := [117];
                                                       r_metadata := {| m_title := [66]; m_created_at := [48];
                                                                        m_text_length := 1 |} |}]> ∅;
                             st_log := [] |} tt _)) [121] _).
  - reflexivity.
  - discriminate.
Defined.

(** Deleting ["x"] from a collection holding ["y"] leaves ["y"] alone. *)
Lemma delete_document_removes_witness :
  st_store unit (snd (delete_document unit [120]
                  {| st_store := <[[121] := {| r_embedding := tt; r_document := [117];
                                               r_metadata := {| m_title := [66]; m_created_at := [48];
                                                                m_text_length := 1 |} |}]> ∅;
                     st_log := [] |})) !! [121]
  = Some {| r_embedding := tt; r_document := [117];
            r_metadata := {| m_title := [66]; m_created_at := [48]; m_text_length := 1 |} |}.
Proof.
  refine (proj1 (proj2 (proj2 (delete_document_removes unit [] [120]
                                 {| st_store := <[[121] := {| r_embedding := tt; r_document := [117];
                                                              r_metadata := {| m_title := [66]; m_created_at := [48];
                                                                               m_text_length := 1 |} |}]> ∅;
                                    st_log := [] |}))) [121] _).
  discriminate.
Defined.

(** Adding then deleting ["x"] in a collection holding only ["y"]. *)
Lemma add_then_delete_restores_witness :
  snd (delete_document unit [120]
         (snd (add_document unit (fun _ => Ok tt) [120] [65] [116] [48]
                 {| st_store := <[[121] := {| r_embedding := tt; r_document := [117];
                                              r_metadata := {| m_title := [66]; m_created_at := [48];
                                                               m_text_length := 1 |} |}]> ∅;
                    st_log := [] |})))
  = {| st_store := <[[121] := {| r_embedding := tt; r_document := [117];
                                 r_metadata := {| m_title := [66]; m_created_at := [48];
                                                  m_text_length := 1 |} |}]> ∅;
       st_log := [] |}.
Proof.
  apply (add_then_delete_restores unit (fun _ => Ok tt) [120] [65] [116] [48]
           {| st_store := <[[121] := {| r_embedding := tt; r_document := [117];
                                        r_metadata := {| m_title := [66]; m_created_at := [48];
                                                         m_text_length := 1 |} |}]> ∅;
              st_log := [] |} tt).
  - reflexivity.
  - vm_compute; reflexivity.
Defined.

Lemma absent_id_routes_witness :
  route_get_document unit Ok [120] {| st_store := ∅; st_log := [] |}
  = (Ok (HttpJsonError 404 (route_err_get ++ err_get ++ not_found_pre ++ [120] ++ not_found_post)),
     {| st_store := ∅; st_log := [] |}).
Proof.
  refine (proj1 (absent_id_routes unit Ok [120] {| st_store := ∅; st_log := [] |} _)).
  reflexivity.
Defined.

(** The embedding model fails on "What are your hours?". *)
Lemma answer_question_retrieval_failure_witness :
  answer_question unit (fun _ => Err (PyExc (KOther [79]) [] None)) (fun _ _ _ => Ok [])
    (fun _ _ => Ok None) ascii_lower q_hours {| st_store := ∅; st_log := [] |}
  = (Err (wrap err_answer (wrap err_search (PyExc (KOther [79]) [] None))),
     {| st_store := ∅; st_log := [] ++ [CallSearch q_hours 3] |}).
Proof.
  apply (answer_question_retrieval_failure unit (fun _ => Err (PyExc (KOther [79]) [] None))
           (fun _ _ _ => Ok []) (fun _ _ => Ok None) ascii_lower q_hours
           {| st_store := ∅; st_log := [] |}).
  - reflexivity.
  - vm_compute; reflexivity.
  - left; reflexivity.
Defined.

(** The store returns a row whose metadata is [None], after the "Hours"
    document. *)
Lemma answer_question_metadata_none_witness :
  answer_question unit (fun _ => Ok tt)
    (fun _ _ _ => Ok [hours_doc; {| d_id := [100; 50]; d_document := Some [116];
                                    d_metadata := MetaNone; d_distance := 0 |}])
    (fun _ _ => Ok None) ascii_lower q_hours {| st_store := ∅; st_log := [] |}
  = (Err (wrap err_answer (PyExc KAttributeError none_get_msg None)),
     {| st_store := ∅; st_log := [] ++ [CallSearch q_hours 3] |}).
Proof.
  refine (proj2 (answer_question_metadata_none unit (fun _ => Ok tt)
                   (fun _ _ _ => Ok [hours_doc; {| d_id := [100; 50]; d_document := Some [116];
                                                   d_metadata := MetaNone; d_distance := 0 |}])
                   (fun _ _ => Ok None) ascii_lower q_hours {| st_store := ∅; st_log := [] |} tt
                   [hours_doc; {| d_id := [100; 50]; d_document := Some [116];
                                  d_metadata := MetaNone; d_distance := 0 |}]
                   {| d_id := [100; 50]; d_document := Some [116];
                      d_metadata := MetaNone; d_distance := 0 |} _ _ _ _ _ _)).
  - reflexivity.
  - vm_compute; reflexivity.
  - reflexivity.
  - reflexivity.
  - right; left; reflexivity.
  - reflexivity.
Defined.

(** The completion returns no content for "What are your hours?" with an
    empty collection. *)
Lemma answer_question_none_content_witness :
  answer_question unit (fun _ => Ok tt) (fun _ _ _ => Ok []) (fun _ _ => Ok None)
    ascii_lower q_hours {| st_store := ∅; st_log := [] |}
  = (Err (wrap err_answer (PyExc KTypeError none_len_msg None)),
     {| st_store := ∅;
        st_log := [] ++ [CallSearch q_hours 3;
                         CallGenerate (chat_messages no_docs_sentinel q_hours) gen_params] |}).
Proof.
  apply (answer_question_none_content unit (fun _ => Ok tt) (fun _ _ _ => Ok []) (fun _ _ => Ok None)
           ascii_lower q_hours {| st_store := ∅; st_log := [] |} tt [] no_docs_sentinel).
  - reflexivity.
  - vm_compute; reflexivity.
  - reflexivity.
  - reflexivity.
  - reflexivity.
  - reflexivity.
Defined.

(** A blank message gets 400; "What are your hours?" with a failing
    embedding model whose exception class is a [ValueError] subclass
    still gets a 500. *)
Lemma receive_chat_outcome_witness :
  receive_chat unit (fun _ => Ok tt) (fun _ _ _ => Ok []) (fun _ _ => Ok None) ascii_lower
    (fun _ => true) [32] {| st_store := ∅; st_log := [] |}
  = (Ok (HttpJsonError 400 msg_empty_question), {| st_store := ∅; st_log := [] |})
  /\ ((exists r, receive_chat unit (fun _ => Err (PyExc (KOther [86]) [] None)) (fun _ _ _ => Ok [])
                   (fun _ _ => Ok None) ascii_lower (fun _ => true) q_hours
                   {| st_store := ∅; st_log := [] |}
                 = (Ok (HttpOk r),
                    snd (process_message unit (fun _ => Err (PyExc (KOther [86]) [] None))
                           (fun _ _ _ => Ok []) (fun _ _ => Ok None) ascii_lower q_hours
                           {| st_store := ∅; st_log := [] |})))
      \/ (exists rest, receive_chat unit (fun _ => Err (PyExc (KOther [86]) [] None)) (fun _ _ _ => Ok [])
                         (fun _ _ => Ok None) ascii_lower (fun _ => true) q_hours
                         {| st_store := ∅; st_log := [] |}
                       = (Ok (HttpJsonError 500 (route_err_chat ++ err_answer ++ rest)),
                          snd (process_message unit (fun _ => Err (PyExc (KOther [86]) [] None))
                                 (fun _ _ _ => Ok []) (fun _ _ => Ok None) ascii_lower q_hours
                                 {| st_store := ∅; st_log := [] |})))).
Proof.
  split.
  - refine (proj1 (receive_chat_outcome unit (fun _ => Ok tt) (fun _ _ _ => Ok [])
                     (fun _ _ => Ok None) ascii_lower (fun _ => true) [32]
                     {| st_store := ∅; st_log := [] |}) _).
    reflexivity.
  - refine (proj2 (receive_chat_outcome unit (fun _ => Err (PyExc (KOther [86]) [] None))
                     (fun _ _ _ => Ok []) (fun _ _ => Ok None) ascii_lower (fun _ => true) q_hours
                     {| st_store := ∅; st_log := [] |}) _).
    reflexivity.
Defined.
